(** * Two Slither detector plugins: ERC20ChangeBalance and ERC20TransferLimit

    A shallow embedding of
      - slither/detectors/Change_Balance.py           (class ERC20ChangeBalance)
      - slither/detectors/attributes/max_transfer.py  (class ERC20TransferLimit)

    Both plugins read the host framework's objects (contracts, functions,
    CFG nodes, expression objects, variables) and run [isinstance] tests and
    attribute reads on them.  The objects are dynamically typed, so they are
    embedded as one universe [pyobj] of tagged values; an attribute read on
    an object of the wrong class and the lookup of a global name the module
    never bound are faults, carried in the error monad [result]. *)

From Stdlib Require Import List String Ascii Bool ZArith Permutation.
Import ListNotations.
Local Open Scope string_scope.
Local Open Scope list_scope.

(** ** Host data model *)

(** Operator tags of a binary operation (BinaryOperationType). *)
Inductive BinaryOperationType : Set :=
  | ADD | SUB | MUL | DIV | MOD
  | LT | GT | LE | GE | EQ | NEQ
  | AND | OR.

Definition BinaryOperationType_eqb (a b : BinaryOperationType) : bool :=
  match a, b with
  | ADD, ADD | SUB, SUB | MUL, MUL | DIV, DIV | MOD, MOD
  | LT, LT | GT, GT | LE, LE | GE, GE | EQ, EQ | NEQ, NEQ
  | AND, AND | OR, OR => true
  | _, _ => false
  end.

(** Tags of a CFG node (NodeType). *)
Inductive NodeType : Set :=
  | ENTRYPOINT | EXPRESSION | RETURN | IF | IFLOOP | VARIABLE | THROW
  | OTHERNODE.

Definition NodeType_eqb (a b : NodeType) : bool :=
  match a, b with
  | ENTRYPOINT, ENTRYPOINT | EXPRESSION, EXPRESSION | RETURN, RETURN
  | IF, IF | IFLOOP, IFLOOP | VARIABLE, VARIABLE | THROW, THROW
  | OTHERNODE, OTHERNODE => true
  | _, _ => false
  end.

(** The values the detectors can meet: the host's expression objects
    (Call, BinaryOp, UnaryOp, Assignment, Tuple, Identifier, Literal), its
    variable objects and plain Python values.  The host classes are not part
    of the repository; each has the fields the specification's data model
    gives it.  A binary operation holds its operator and its two operands,
    which Change_Balance.py reads as [.left] and [.right] and
    max_transfer.py as [.expression_left] and [.expression_right].  A
    variable's declared type is kept as the string its [type.name] yields. *)
#[warnings="-register-all"]
Inductive pyobj : Type :=
  | PyNone
  | PyInt (z : Z)
  | PyStr (s : string)
  | CallExpression (called : pyobj) (arguments : list pyobj)
  | BinaryOperation (type : BinaryOperationType) (left right : pyobj)
  | UnaryOperation (expression : pyobj)
  | AssignmentOperation (expression_left expression_right : pyobj)
  | TupleExpression (expressions : list pyobj)
  | Identifier (value : pyobj)
  | Literal (value : pyobj)
  | StateVariable (name : string) (type_name : string)
  | LocalVariable (name : string) (type_name : string).

(** The classes [isinstance] is asked about. *)
Inductive pyclass : Set :=
  | C_NoneType | C_int | C_str
  | C_CallExpression | C_BinaryOperation | C_UnaryOperation
  | C_AssignmentOperation | C_TupleExpression
  | C_Identifier | C_Literal
  | C_Variable | C_StateVariable | C_LocalVariable.

Definition pyclass_eqb (a b : pyclass) : bool :=
  match a, b with
  | C_NoneType, C_NoneType | C_int, C_int | C_str, C_str
  | C_CallExpression, C_CallExpression
  | C_BinaryOperation, C_BinaryOperation
  | C_UnaryOperation, C_UnaryOperation
  | C_AssignmentOperation, C_AssignmentOperation
  | C_TupleExpression, C_TupleExpression
  | C_Identifier, C_Identifier | C_Literal, C_Literal
  | C_Variable, C_Variable | C_StateVariable, C_StateVariable
  | C_LocalVariable, C_LocalVariable => true
  | _, _ => false
  end.

Definition class_of (o : pyobj) : pyclass :=
  match o with
  | PyNone => C_NoneType
  | PyInt _ => C_int
  | PyStr _ => C_str
  | CallExpression _ _ => C_CallExpression
  | BinaryOperation _ _ _ => C_BinaryOperation
  | UnaryOperation _ => C_UnaryOperation
  | AssignmentOperation _ _ => C_AssignmentOperation
  | TupleExpression _ => C_TupleExpression
  | Identifier _ => C_Identifier
  | Literal _ => C_Literal
  | StateVariable _ _ => C_StateVariable
  | LocalVariable _ _ => C_LocalVariable
  end.

(** [issubclass]: state and local variables are variables. *)
Definition issubclass (c d : pyclass) : bool :=
  pyclass_eqb c d ||
  match c, d with
  | C_StateVariable, C_Variable | C_LocalVariable, C_Variable => true
  | _, _ => false
  end.

Definition isinstance (o : pyobj) (c : pyclass) : bool :=
  issubclass (class_of o) c.

(** Python's [needle in haystack] on strings. *)
Fixpoint str_in (needle hay : string) : bool :=
  if String.prefix needle hay then true
  else match hay with
       | EmptyString => false
       | String _ rest => str_in needle rest
       end.

(** [o == s] for a string constant [s]: none of the host classes compares
    equal to a string, so only a string object can be equal to it. *)
Definition py_eq_str (o : pyobj) (s : string) : bool :=
  match o with
  | PyStr t => String.eqb t s
  | _ => false
  end.

Record Modifier : Type := mkModifier { modifier_name : string }.

Record Node : Type := mkNode {
  node_type : NodeType;
  node_expression : pyobj
}.

Record Function : Type := mkFunction {
  function_name : string;
  full_name : string;
  modifiers : list Modifier;
  instructions : list pyobj;
  all_nodes : list Node
}.

Record Contract : Type := mkContract {
  contract_name : string;
  functions : list Function;
  is_token : bool
}.

(** A finding handed back to the host: the contract, the element's name and
    the value reported with it. *)
Record Output : Type := mkOutput {
  output_contract : string;
  output_element : string;
  output_value : pyobj
}.

(** ** slither/detectors/Change_Balance.py *)

Module ERC20ChangeBalance.
Section WithStr.

(** The host's [str()] of an expression object. *)
Variable str : pyobj -> string.

Definition ignored_functions : list string :=
  ["mint"; "burn"; "Transfer"; "transferFrom"].

Definition _is_balance_altering_instruction (instruction : pyobj) : bool :=
  match instruction with
  | CallExpression called _ => str_in "transfer" (str called)
  | _ => false
  end.

Fixpoint _has_balance_altering_operations (instrs : list pyobj) : bool :=
  match instrs with
  | [] => false
  | instruction :: rest =>
      if _is_balance_altering_instruction instruction then true
      else _has_balance_altering_operations rest
  end.

Definition _is_balance_variable (variable : pyobj) : bool :=
  match variable with
  | StateVariable name type_name =>
      String.eqb type_name "mapping(address => uint256)"
      && String.eqb name "balanceOf"
  | _ => false
  end.

Definition _is_balance_increment_or_decrement_instruction
           (instruction : pyobj) : bool :=
  match instruction with
  | BinaryOperation type left_operand right_operand =>
      if existsb (BinaryOperationType_eqb type) [ADD; SUB] then
        if _is_balance_variable left_operand
           || _is_balance_variable right_operand
        then true else false
      else false
  | _ => false
  end.

Fixpoint _performs_balance_increment_or_decrement (instrs : list pyobj)
  : bool :=
  match instrs with
  | [] => false
  | instruction :: rest =>
      if _is_balance_increment_or_decrement_instruction instruction then true
      else _performs_balance_increment_or_decrement rest
  end.

(** The nest of [if]s guarding [results.append(f.name)]. *)
Definition appends (f : Function) : bool :=
  if negb (existsb (String.eqb (function_name f)) ignored_functions) then
    if existsb (fun m => String.eqb (modifier_name m) "onlyOwner")
               (modifiers f) then
      if _has_balance_altering_operations (instructions f) then
        if _performs_balance_increment_or_decrement (instructions f)
        then true else false
      else false
    else false
  else false.

(** The loop [for f in c.functions], threading the list [results]. *)
Fixpoint detect_loop (fs : list Function) (results : list string)
  : list string :=
  match fs with
  | [] => results
  | f :: rest =>
      detect_loop rest
        (if appends f then results ++ [function_name f] else results)
  end.

Definition _detect_change_balance_function (c : Contract) : list string :=
  detect_loop (functions c) [].

(** The reporting hook: [results = []; return results]. *)
Definition _detect (contracts : list Contract) : list Output :=
  let results := [] in
  results.

End WithStr.
End ERC20ChangeBalance.

(** ** Faults and the error monad *)

Inductive exn : Type :=
  | NameError (name : string)
  | AttributeError (cls : pyclass) (attr : string).

Inductive result (A : Type) : Type :=
  | OK (a : A)
  | Raise (e : exn).
Arguments OK {A} a.
Arguments Raise {A} e.

Definition bind {A B : Type} (m : result A) (k : A -> result B) : result B :=
  match m with
  | OK a => k a
  | Raise e => Raise e
  end.

Declare Scope py_scope.
Delimit Scope py_scope with py.
Notation "x <- m ;; k" := (bind m (fun x => k))
  (at level 61, m at next level, right associativity) : py_scope.
(** Python's short-circuit [a and b] on booleans. *)
Notation "a 'and_then' b" :=
  (bind a (fun t : bool => if t then b else OK false))
  (at level 62, right associativity) : py_scope.

(** Attribute reads.  An object has the attributes of its class; reading
    any other one raises AttributeError. *)
Definition attr_type (o : pyobj) : result BinaryOperationType :=
  match o with
  | BinaryOperation t _ _ => OK t
  | _ => Raise (AttributeError (class_of o) "type")
  end.

Definition attr_expression_left (o : pyobj) : result pyobj :=
  match o with
  | BinaryOperation _ l _ | AssignmentOperation l _ => OK l
  | _ => Raise (AttributeError (class_of o) "expression_left")
  end.

Definition attr_expression_right (o : pyobj) : result pyobj :=
  match o with
  | BinaryOperation _ _ r | AssignmentOperation _ r => OK r
  | _ => Raise (AttributeError (class_of o) "expression_right")
  end.

Definition attr_value (o : pyobj) : result pyobj :=
  match o with
  | Identifier v | Literal v => OK v
  | _ => Raise (AttributeError (class_of o) "value")
  end.

(** [variable.type.name] *)
Definition attr_type_name (o : pyobj) : result string :=
  match o with
  | StateVariable _ ty | LocalVariable _ ty => OK ty
  | _ => Raise (AttributeError (class_of o) "type")
  end.

(** The class names a module can hand to [isinstance]: what its import
    statements (and the builtins) bind. *)
Definition namespace : Type := list (string * pyclass).

Fixpoint load_global (G : namespace) (name : string) : result pyclass :=
  match G with
  | [] => Raise (NameError name)
  | (n, c) :: rest => if String.eqb n name then OK c else load_global rest name
  end.

(** ** slither/detectors/attributes/max_transfer.py *)

Module ERC20TransferLimit.

(** The classes bound by the module's imports
    ([Variable], [StateVariable], [CallExpression], [BinaryOperation],
    [UnaryOperation], [AssignmentOperation], [TupleExpression],
    [Identifier]) and the builtins [int] and [str].  The module has no
    import of [Literal]. *)
Definition module_globals : namespace :=
  [ ("Variable", C_Variable); ("StateVariable", C_StateVariable);
    ("CallExpression", C_CallExpression);
    ("BinaryOperation", C_BinaryOperation);
    ("UnaryOperation", C_UnaryOperation);
    ("AssignmentOperation", C_AssignmentOperation);
    ("TupleExpression", C_TupleExpression);
    ("Identifier", C_Identifier);
    ("int", C_int); ("str", C_str) ].

(** The same namespace with [Literal] bound to the host's Literal
    expression class, as the specification's design notes read the name. *)
Definition globals_with_Literal : namespace :=
  ("Literal", C_Literal) :: module_globals.

Local Open Scope py_scope.

Definition transfer_signatures : list string :=
  [ "transfer(address,uint256)"; "transferFrom(address,address,uint256)" ].

(** Modelled from the spec: the host's lookup-by-signature
    [contract.get_function_from_signature], which is not part of this
    repository; it yields the function with that exact signature string,
    or nothing. *)
Definition get_function_from_signature (contract : Contract)
           (signature : string) : option Function :=
  find (fun f => String.eqb (full_name f) signature) (functions contract).

Fixpoint signatures_loop (contract : Contract) (sigs : list string)
         (transfer_functions : list Function) : list Function :=
  match sigs with
  | [] => transfer_functions
  | signature :: rest =>
      signatures_loop contract rest
        (match get_function_from_signature contract signature with
         | Some function => transfer_functions ++ [function]
         | None => transfer_functions
         end)
  end.

Definition _get_transfer_functions (contract : Contract) : list Function :=
  signatures_loop contract transfer_signatures [].

(** The chain of [and]s, left to right, each operand run only after the
    ones before it answered True.  The class names are looked up in the
    module's namespace [G] when the operand runs, as Python does. *)
Definition _is_transfer_require (G : namespace) (exp : pyobj)
  : result bool :=
  (c <- load_global G "BinaryOperation" ;; OK (isinstance exp c))
  and_then (t <- attr_type exp ;; OK (BinaryOperationType_eqb t LT))
  and_then (l <- attr_expression_left exp ;;
            c <- load_global G "Identifier" ;; OK (isinstance l c))
  and_then (r <- attr_expression_right exp ;;
            c <- load_global G "Literal" ;; OK (isinstance r c))
  and_then (l <- attr_expression_left exp ;; v <- attr_value l ;;
            c <- load_global G "StateVariable" ;; OK (isinstance v c))
  and_then (r <- attr_expression_right exp ;; v <- attr_value r ;;
            c <- load_global G "int" ;; OK (isinstance v c))
  and_then (l <- attr_expression_left exp ;; v <- attr_value l ;;
            n <- attr_type_name v ;; OK (String.eqb n "uint256")).

Definition _is_transfer_require_statement (G : namespace) (exp : pyobj)
  : result bool :=
  (c <- load_global G "BinaryOperation" ;; OK (isinstance exp c))
  and_then (t <- attr_type exp ;; OK (BinaryOperationType_eqb t AND))
  and_then (l <- attr_expression_left exp ;; _is_transfer_require G l)
  and_then (r <- attr_expression_right exp ;; _is_transfer_require G r).

Definition _get_transfer_limit (exp : pyobj) : result pyobj :=
  l <- attr_expression_left exp ;;
  lv <- attr_value l ;;
  if py_eq_str lv "msg.value" then
    r <- attr_expression_right exp ;; attr_value r
  else
    r <- attr_expression_right exp ;;
    rv <- attr_value r ;;
    if py_eq_str rv "msg.value" then
      l' <- attr_expression_left exp ;; attr_value l'
    else OK PyNone.

(** The loop [for node in function.all_nodes()]; [transfer_limit] is the
    local it leaves behind, and a match ends the loop ([break]). *)
Fixpoint nodes_loop (G : namespace) (nodes : list Node)
         (transfer_limit : pyobj) : result pyobj :=
  match nodes with
  | [] => OK transfer_limit
  | node :: rest =>
      if NodeType_eqb (node_type node) EXPRESSION then
        let exp := node_expression node in
        b <- _is_transfer_require_statement G exp ;;
        if b then _get_transfer_limit exp
        else nodes_loop G rest transfer_limit
      else nodes_loop G rest transfer_limit
  end.

Definition _detect_transfer_limit (G : namespace) (function : Function)
  : result pyobj :=
  nodes_loop G (all_nodes function) PyNone.

(** Modelled from the spec: the host's [generate_result], which is not
    part of this repository; the finding names the contract and the
    function and carries the extracted bound. *)
Definition generate_result (contract : Contract) (name : string)
           (transfer_limit : pyobj) : Output :=
  mkOutput (contract_name contract) name transfer_limit.

Definition is_not_None (o : pyobj) : bool :=
  match o with PyNone => false | _ => true end.

(** [for transfer_function in transfer_functions] *)
Fixpoint functions_loop (G : namespace) (contract : Contract)
         (fs : list Function) (results : list Output)
  : result (list Output) :=
  match fs with
  | [] => OK results
  | transfer_function :: rest =>
      transfer_limit <- _detect_transfer_limit G transfer_function ;;
      functions_loop G contract rest
        (if is_not_None transfer_limit then
           results ++ [generate_result contract
                         (function_name transfer_function) transfer_limit]
         else results)
  end.

(** [for contract in self.contracts] *)
Fixpoint contracts_loop (G : namespace) (cs : list Contract)
         (results : list Output) : result (list Output) :=
  match cs with
  | [] => OK results
  | contract :: rest =>
      if is_token contract then
        results' <- functions_loop G contract
                      (_get_transfer_functions contract) results ;;
        contracts_loop G rest results'
      else contracts_loop G rest results
  end.

Definition _detect (G : namespace) (contracts : list Contract)
  : result (list Output) :=
  contracts_loop G contracts [].

End ERC20TransferLimit.

(** ** Properties named by the specification *)

(** The state variable the balance test looks for. *)
Definition balanceOf_variable : pyobj :=
  StateVariable "balanceOf" "mapping(address => uint256)".

(** Predicate 1: some instruction is a call whose callee's text contains
    "transfer". *)
Definition has_transfer_like_call (str : pyobj -> string) (f : Function)
  : Prop :=
  exists called args,
    In (CallExpression called args) (instructions f)
    /\ exists pre post : string,
         str called = String.append pre (String.append "transfer" post).

(** Predicate 2: some instruction is an addition or subtraction one of
    whose operands is the [balanceOf] mapping. *)
Definition has_balance_arithmetic (f : Function) : Prop :=
  exists op a b,
    In (BinaryOperation op a b) (instructions f)
    /\ (op = ADD \/ op = SUB)
    /\ (a = balanceOf_variable \/ b = balanceOf_variable).

Definition has_onlyOwner (f : Function) : Prop :=
  exists m, In m (modifiers f) /\ modifier_name m = "onlyOwner".

(** An Identifier that references a uint256-typed state variable. *)
Definition is_uint256_state_identifier (e : pyobj) : bool :=
  match e with
  | Identifier (StateVariable _ ty) => String.eqb ty "uint256"
  | _ => false
  end.

Definition is_integer_literal (e : pyobj) : bool :=
  match e with
  | Literal (PyInt _) => true
  | _ => false
  end.

(** The sub-comparison as the specification words it: a strict less-than
    between such an Identifier and an integer Literal, in either order. *)
Definition comparison_either_order (e : pyobj) : bool :=
  match e with
  | BinaryOperation LT a b =>
      (is_uint256_state_identifier a && is_integer_literal b)
      || (is_integer_literal a && is_uint256_state_identifier b)
  | _ => false
  end.

(** The guard shape as the specification words it. *)
Definition guard_shape_spec (e : pyobj) : bool :=
  match e with
  | BinaryOperation AND l r =>
      comparison_either_order l && comparison_either_order r
  | _ => false
  end.

(** The sub-comparison with the Identifier on the left and the Literal on
    the right only. *)
Definition comparison_identifier_left (e : pyobj) : bool :=
  match e with
  | BinaryOperation LT a b =>
      is_uint256_state_identifier a && is_integer_literal b
  | _ => false
  end.

Definition guard_shape_identifier_left (e : pyobj) : bool :=
  match e with
  | BinaryOperation AND l r =>
      comparison_identifier_left l && comparison_identifier_left r
  | _ => false
  end.

(** The nodes a scan passes over: every EXPRESSION node among them is
    tested and answers False. *)
Definition passed_over (G : namespace) (nodes : list Node) : Prop :=
  forall m, In m nodes -> node_type m = EXPRESSION ->
    ERC20TransferLimit._is_transfer_require_statement G (node_expression m)
    = OK false.

(** The sub-comparison test gets as far as naming [Literal]: the tested
    object is a strict less-than whose left operand is an Identifier. *)
Definition comparison_names_Literal (e : pyobj) : bool :=
  match e with
  | BinaryOperation LT (Identifier _) _ => true
  | _ => false
  end.

(** The guard test gets as far as naming [Literal]: that happens while it
    tests the left child of a logical AND. *)
Definition guard_names_Literal (e : pyobj) : bool :=
  match e with
  | BinaryOperation AND l _ => comparison_names_Literal l
  | _ => false
  end.

(** ** Sample host objects *)

Module Samples.

(** A printer standing in for the host's [str()]: an Identifier prints
    as the name it holds, a call as its callee. *)
Fixpoint sample_str (o : pyobj) : string :=
  match o with
  | PyStr s => s
  | Identifier v => sample_str v
  | StateVariable n _ | LocalVariable n _ => n
  | CallExpression c _ => sample_str c
  | _ => ""
  end.

Definition onlyOwner : Modifier := mkModifier "onlyOwner".

Definition transfer_call : pyobj :=
  CallExpression (Identifier (PyStr "token.transfer")) [].

Definition balance_add : pyobj :=
  BinaryOperation ADD balanceOf_variable (Literal (PyInt 1)).

(** An owner-only function that calls a transfer and adds to balanceOf. *)
Definition drain (name : string) : Function :=
  mkFunction name (String.append name "(address,uint256)") [onlyOwner]
             [transfer_call; balance_add] [].

Definition only_call : Function :=
  mkFunction "sweep" "sweep()" [onlyOwner] [transfer_call] [].

Definition cap : pyobj := Identifier (StateVariable "cap" "uint256").
Definition msg_value : pyobj := Identifier (PyStr "msg.value").
Definition balance : pyobj := Identifier (StateVariable "balance" "uint256").

(** [cap < 5 && cap < 6] *)
Definition guard : pyobj :=
  BinaryOperation AND (BinaryOperation LT cap (Literal (PyInt 5)))
                      (BinaryOperation LT cap (Literal (PyInt 6))).

(** [5 < cap && 6 < cap] *)
Definition guard_reversed : pyobj :=
  BinaryOperation AND (BinaryOperation LT (Literal (PyInt 5)) cap)
                      (BinaryOperation LT (Literal (PyInt 6)) cap).

(** [balance < msg.value && msg.value < 100] *)
Definition guard_msg_value : pyobj :=
  BinaryOperation AND (BinaryOperation LT balance msg_value)
                      (BinaryOperation LT msg_value (Literal (PyInt 100))).

(** [cap < 7 && cap < 8] *)
Definition guard_later : pyobj :=
  BinaryOperation AND (BinaryOperation LT cap (Literal (PyInt 7)))
                      (BinaryOperation LT cap (Literal (PyInt 8))).

Definition transfer_with (nodes : list Node) : Function :=
  mkFunction "transfer" "transfer(address,uint256)" [] [] nodes.

Definition token_with (e : pyobj) (tok : bool) : Contract :=
  mkContract "Token" [transfer_with [mkNode ENTRYPOINT PyNone;
                                     mkNode EXPRESSION e]] tok.

End Samples.

(** ** Where the scan of max_transfer.py stops, as the module is written *)

(** An EXPRESSION node on which the guard test names [Literal]. *)
Definition node_names_Literal (n : Node) : bool :=
  NodeType_eqb (node_type n) EXPRESSION
  && guard_names_Literal (node_expression n).

(** A function one of whose nodes is such a node. *)
Definition function_names_Literal (f : Function) : bool :=
  existsb node_names_Literal (all_nodes f).


Definition is_EXPRESSION (n : Node) : bool :=
  NodeType_eqb (node_type n) EXPRESSION.

Module MoreSamples.

(** An owner-only function whose arithmetic names balanceOf through an
    Identifier, as an expression tree does. *)
Definition drain_by_identifier : Function :=
  mkFunction "drain" "drain()" [Samples.onlyOwner]
    [Samples.transfer_call;
     BinaryOperation ADD (Identifier balanceOf_variable) (Literal (PyInt 1))]
    [].

(** An owner-only function whose transfer call sits inside an assignment. *)
Definition drain_by_nested_call : Function :=
  mkFunction "drain" "drain()" [Samples.onlyOwner]
    [AssignmentOperation (Identifier (LocalVariable "ok" "bool"))
                         Samples.transfer_call;
     Samples.balance_add]
    [].

(** [drain] with its two instructions in the other order. *)
Definition drain_reordered : Function :=
  mkFunction "drain" "drain()" [Samples.onlyOwner]
    [Samples.balance_add; Samples.transfer_call] [].

Definition transferFrom_with (nodes : list Node) : Function :=
  mkFunction "transferFrom" "transferFrom(address,address,uint256)"
             [] [] nodes.

Definition quiet_token : Contract :=
  mkContract "Quiet"
    [Samples.transfer_with [mkNode ENTRYPOINT PyNone;
                            mkNode EXPRESSION Samples.guard_reversed];
     transferFrom_with [mkNode RETURN PyNone]] true.

End MoreSamples.

(** ** Predicate 2 as the specification words it *)

(** An operand that resolves to the balanceOf state variable: the variable
    object, or an Identifier that references it. *)
Definition resolves_to_balanceOf (o : pyobj) : bool :=
  match o with
  | StateVariable name type_name =>
      String.eqb type_name "mapping(address => uint256)"
      && String.eqb name "balanceOf"
  | Identifier (StateVariable name type_name) =>
      String.eqb type_name "mapping(address => uint256)"
      && String.eqb name "balanceOf"
  | _ => false
  end.

(** Some instruction is an addition or subtraction one of whose operands
    resolves to the balanceOf state variable. *)
Definition has_balance_arithmetic_as_worded (f : Function) : Prop :=
  exists op a b,
    In (BinaryOperation op a b) (instructions f)
    /\ (op = ADD \/ op = SUB)
    /\ (resolves_to_balanceOf a = true \/ resolves_to_balanceOf b = true).

(** An owner-only function named "transfer" that calls a transfer and adds
    to balanceOf, named through an Identifier. *)
Definition transfer_by_identifier : Function :=
  mkFunction "transfer" "transfer(address,uint256)" [Samples.onlyOwner]
    [Samples.transfer_call;
     BinaryOperation ADD (Identifier balanceOf_variable) (Literal (PyInt 1))]
    [].

(** * Theorems *)

(** ** Strings *)

Lemma prefix_iff_append (n h : string) :
  String.prefix n h = true <-> exists post, h = String.append n post.
Proof.
  revert h; induction n as [|a n IH]; intros h.
  - split; [intros _; exists h; reflexivity | intros _; now destruct h].
  - destruct h as [|b h]; simpl.
    + split; [discriminate | intros [post H]; discriminate].
    + destruct (Ascii.ascii_dec a b) as [->|Hab].
      * rewrite IH. split; intros [post H]; exists post.
        -- now rewrite H.
        -- now injection H.
      * split; [discriminate|].
        intros [post H]. injection H as H1 _. congruence.
Qed.

Lemma str_in_unfold (n h : string) :
  str_in n h
  = if String.prefix n h then true
    else match h with
         | EmptyString => false
         | String _ rest => str_in n rest
         end.
Proof. destruct h; reflexivity. Qed.

(** [str_in] is the substring test. *)
Lemma str_in_iff (n h : string) :
  str_in n h = true
  <-> exists pre post, h = String.append pre (String.append n post).
Proof.
  induction h as [|b h IH]; rewrite str_in_unfold.
  - destruct (String.prefix n "") eqn:P.
    + split; [intros _|reflexivity].
      apply prefix_iff_append in P as [post P].
      exists "", post. exact P.
    + split; [discriminate|].
      intros [pre [post H]]. destruct pre; simpl in H.
      * assert (String.prefix n "" = true) as Q
            by (apply prefix_iff_append; now exists post).
        congruence.
      * discriminate.
  - destruct (String.prefix n (String b h)) eqn:P.
    + split; [intros _|reflexivity].
      apply prefix_iff_append in P as [post P].
      exists "", post. exact P.
    + rewrite IH. split.
      * intros [pre [post H]]. exists (String b pre), post.
        simpl. now rewrite H.
      * intros [pre [post H]]. destruct pre as [|c pre]; simpl in H.
        -- assert (String.prefix n (String b h) = true) as Q
              by (apply prefix_iff_append; now exists post).
           congruence.
        -- injection H as _ H. now exists pre, post.
Qed.

(** ** ERC20ChangeBalance *)

Section ChangeBalanceFacts.

Import ERC20ChangeBalance.
Variable str : pyobj -> string.

Lemma is_balance_variable_iff (v : pyobj) :
  _is_balance_variable v = true <-> v = balanceOf_variable.
Proof.
  unfold _is_balance_variable, balanceOf_variable.
  destruct v; try (split; [discriminate | intros H; discriminate H]).
  rewrite andb_true_iff, !String.eqb_eq.
  split; [intros [-> ->]; reflexivity | intros H; injection H; auto].
Qed.

Lemma is_balance_altering_instruction_iff (i : pyobj) :
  _is_balance_altering_instruction str i = true
  <-> exists called args,
        i = CallExpression called args
        /\ str_in "transfer" (str called) = true.
Proof.
  destruct i; simpl;
    try (split; [discriminate | intros (c & a & H & _); discriminate H]).
  split.
  - intros H. eauto.
  - intros (c & a & H & Hs). injection H as -> _. exact Hs.
Qed.

Lemma is_balance_increment_or_decrement_instruction_iff (i : pyobj) :
  _is_balance_increment_or_decrement_instruction i = true
  <-> exists op a b,
        i = BinaryOperation op a b
        /\ (op = ADD \/ op = SUB)
        /\ (a = balanceOf_variable \/ b = balanceOf_variable).
Proof.
  destruct i; simpl;
    try (split; [discriminate | intros (o & a & b & H & _); discriminate H]).
  split.
  - intros H. exists type, i1, i2. split; [reflexivity|].
    destruct type; simpl in H; try discriminate H.
    all: destruct (_is_balance_variable i1 || _is_balance_variable i2) eqn:E;
      try discriminate H.
    all: apply orb_true_iff in E.
    all: rewrite !is_balance_variable_iff in E; auto.
  - intros (o & a & b & H & Hop & Hv). injection H as -> -> ->.
    rewrite <- !is_balance_variable_iff in Hv.
    apply orb_true_iff in Hv. destruct Hop as [-> | ->]; simpl; now rewrite Hv.
Qed.

Lemma has_balance_altering_operations_iff (l : list pyobj) :
  _has_balance_altering_operations str l = true
  <-> exists i, In i l /\ _is_balance_altering_instruction str i = true.
Proof.
  induction l as [|x l IH]; simpl.
  - split; [discriminate | intros (i & [] & _)].
  - destruct (_is_balance_altering_instruction str x) eqn:E.
    + split; [intros _; exists x; auto | reflexivity].
    + rewrite IH. split.
      * intros (i & Hi & H). exists i; auto.
      * intros (i & [<- | Hi] & H); [congruence | exists i; auto].
Qed.

Lemma performs_balance_increment_or_decrement_iff (l : list pyobj) :
  _performs_balance_increment_or_decrement l = true
  <-> exists i, In i l
                /\ _is_balance_increment_or_decrement_instruction i = true.
Proof.
  induction l as [|x l IH]; simpl.
  - split; [discriminate | intros (i & [] & _)].
  - destruct (_is_balance_increment_or_decrement_instruction x) eqn:E.
    + split; [intros _; exists x; auto | reflexivity].
    + rewrite IH. split.
      * intros (i & Hi & H). exists i; auto.
      * intros (i & [<- | Hi] & H); [congruence | exists i; auto].
Qed.

Lemma has_transfer_like_call_iff (f : Function) :
  _has_balance_altering_operations str (instructions f) = true
  <-> has_transfer_like_call str f.
Proof.
  rewrite has_balance_altering_operations_iff. unfold has_transfer_like_call.
  split.
  - intros (i & Hi & H).
    apply is_balance_altering_instruction_iff in H as (c & a & -> & H).
    exists c, a. split; [exact Hi|]. now apply str_in_iff.
  - intros (c & a & Hi & H). exists (CallExpression c a). split; [exact Hi|].
    apply is_balance_altering_instruction_iff. exists c, a.
    split; [reflexivity|]. now apply str_in_iff.
Qed.

Lemma has_balance_arithmetic_iff (f : Function) :
  _performs_balance_increment_or_decrement (instructions f) = true
  <-> has_balance_arithmetic f.
Proof.
  rewrite performs_balance_increment_or_decrement_iff.
  unfold has_balance_arithmetic. split.
  - intros (i & Hi & H).
    apply is_balance_increment_or_decrement_instruction_iff
      in H as (o & a & b & -> & H).
    exists o, a, b. auto.
  - intros (o & a & b & Hi & H). exists (BinaryOperation o a b).
    split; [exact Hi|].
    apply is_balance_increment_or_decrement_instruction_iff.
    exists o, a, b. auto.
Qed.

Lemma has_onlyOwner_iff (f : Function) :
  existsb (fun m => String.eqb (modifier_name m) "onlyOwner") (modifiers f)
  = true <-> has_onlyOwner f.
Proof.
  rewrite existsb_exists. unfold has_onlyOwner.
  split; intros (m & Hm & H); exists m; split; auto;
    now apply String.eqb_eq.
Qed.

Lemma ignored_iff (f : Function) :
  existsb (String.eqb (function_name f)) ignored_functions = true
  <-> In (function_name f) ignored_functions.
Proof.
  rewrite existsb_exists. split.
  - intros (n & Hn & H). apply String.eqb_eq in H. now rewrite H.
  - intros H. exists (function_name f). split; [exact H|].
    apply String.eqb_refl.
Qed.

(** When the loop body appends. *)
Lemma appends_iff (f : Function) :
  appends str f = true
  <-> ~ In (function_name f) ignored_functions
      /\ has_onlyOwner f
      /\ has_transfer_like_call str f
      /\ has_balance_arithmetic f.
Proof.
  rewrite <- ignored_iff, <- has_onlyOwner_iff,
    <- has_transfer_like_call_iff, <- has_balance_arithmetic_iff.
  unfold appends.
  destruct (existsb (String.eqb (function_name f)) ignored_functions);
    destruct (existsb _ (modifiers f));
    destruct (_has_balance_altering_operations str (instructions f));
    destruct (_performs_balance_increment_or_decrement (instructions f));
    simpl; intuition congruence.
Qed.

(** The loop appends the names of the functions that pass, in order. *)
Lemma detect_loop_filter (fs : list Function) (results : list string) :
  detect_loop str fs results
  = results ++ map function_name (filter (appends str) fs).
Proof.
  revert results; induction fs as [|f fs IH]; intros results; simpl.
  - now rewrite app_nil_r.
  - rewrite IH. destruct (appends str f); simpl.
    + now rewrite <- app_assoc.
    + reflexivity.
Qed.

Lemma detect_change_balance_function_filter (c : Contract) :
  _detect_change_balance_function str c
  = map function_name (filter (appends str) (functions c)).
Proof.
  unfold _detect_change_balance_function. now rewrite detect_loop_filter.
Qed.

(** A function on which the loop body does not append leaves no trace. *)
Lemma detect_skips (n : string) (tok : bool) (pre post : list Function)
      (f : Function) :
  appends str f = false ->
  _detect_change_balance_function str (mkContract n (pre ++ f :: post) tok)
  = _detect_change_balance_function str (mkContract n (pre ++ post) tok).
Proof.
  intros H. rewrite !detect_change_balance_function_filter. simpl.
  rewrite !filter_app. simpl. now rewrite H.
Qed.

End ChangeBalanceFacts.

(** C1.  The reporting hook [_detect] of ERC20ChangeBalance returns the
    empty list for every contract set, whatever the contracts hold; it does
    not run the matcher: there is a contract on which the matcher
    [_detect_change_balance_function] finds a function while [_detect]
    still reports nothing. *)
Theorem change_balance_detect_is_empty :
  (forall contracts : list Contract, ERC20ChangeBalance._detect contracts = [])
  /\ exists c : Contract,
       ERC20ChangeBalance._detect_change_balance_function
         Samples.sample_str c = ["drain"]
       /\ ERC20ChangeBalance._detect [c] = [].
Proof.
  split; [reflexivity|].
  exists (mkContract "Vault" [Samples.drain "drain"] false).
  split; reflexivity.
Qed.

(** C5.  A function that lacks the transfer-like call or lacks the
    balanceOf addition/subtraction is never in the matcher's result: taking
    it out of the contract leaves the result as it is, and every name in the
    result belongs to another function of the contract that has both the
    call and the arithmetic. *)
Theorem matcher_requires_both_predicates
        (str : pyobj -> string) (n : string) (tok : bool)
        (pre post : list Function) (f : Function) :
  ~ (has_transfer_like_call str f /\ has_balance_arithmetic f) ->
  ERC20ChangeBalance._detect_change_balance_function str
    (mkContract n (pre ++ f :: post) tok)
  = ERC20ChangeBalance._detect_change_balance_function str
      (mkContract n (pre ++ post) tok)
  /\ forall name,
       In name (ERC20ChangeBalance._detect_change_balance_function str
                  (mkContract n (pre ++ f :: post) tok)) ->
       exists g, In g (pre ++ post) /\ function_name g = name
                 /\ has_transfer_like_call str g /\ has_balance_arithmetic g.
Proof.
  intros Hf.
  assert (ERC20ChangeBalance.appends str f = false) as Hskip.
  { destruct (ERC20ChangeBalance.appends str f) eqn:E; [|reflexivity].
    apply appends_iff in E. tauto. }
  pose proof (detect_skips str n tok pre post f Hskip) as Heq.
  split; [exact Heq|].
  intros name Hin. rewrite Heq in Hin.
  rewrite detect_change_balance_function_filter in Hin. simpl in Hin.
  apply in_map_iff in Hin as (g & Hname & Hg).
  apply filter_In in Hg as (Hg & Happ).
  apply appends_iff in Happ. exists g. tauto.
Qed.

Lemma matcher_requires_both_predicates_witness :
  ERC20ChangeBalance._detect_change_balance_function Samples.sample_str
    (mkContract "Vault" ([Samples.drain "drain"] ++ Samples.only_call :: [])
                false)
  = ["drain"].
Proof.
  destruct (matcher_requires_both_predicates Samples.sample_str "Vault" false
              [Samples.drain "drain"] [] Samples.only_call) as [H _].
  - intros [_ (op & a & b & Hin & _)].
    simpl in Hin. destruct Hin as [Hin | []]. discriminate Hin.
  - rewrite H. reflexivity.
Defined.

(** C6.  A function none of whose modifiers is named exactly "onlyOwner" is
    left out of the matcher's result whatever its instructions are: the
    result is the one of the contract without that function. *)
Theorem matcher_requires_onlyOwner
        (str : pyobj -> string) (n : string) (tok : bool)
        (pre post : list Function) (f : Function) :
  (forall m, In m (modifiers f) -> modifier_name m <> "onlyOwner") ->
  ERC20ChangeBalance._detect_change_balance_function str
    (mkContract n (pre ++ f :: post) tok)
  = ERC20ChangeBalance._detect_change_balance_function str
      (mkContract n (pre ++ post) tok).
Proof.
  intros Hm. apply detect_skips.
  destruct (ERC20ChangeBalance.appends str f) eqn:E; [|reflexivity].
  apply appends_iff in E as (_ & (m & Hin & Hname) & _).
  now apply Hm in Hin.
Qed.

Lemma matcher_requires_onlyOwner_witness :
  ERC20ChangeBalance._detect_change_balance_function Samples.sample_str
    (mkContract "Vault"
       ([] ++ mkFunction "drain" "drain()" [mkModifier "onlyowner"]
                [Samples.transfer_call; Samples.balance_add] []
           :: [Samples.drain "sweep"]) false)
  = ["sweep"].
Proof.
  rewrite (matcher_requires_onlyOwner Samples.sample_str "Vault" false []
             [Samples.drain "sweep"]).
  - reflexivity.
  - intros m [<- | []]. simpl. discriminate.
Defined.

(** C7.  A function whose name is on the allow-list "mint", "burn",
    "Transfer", "transferFrom" is left out of the matcher's result even
    with the "onlyOwner" modifier and both predicates satisfied. *)
Theorem matcher_skips_allow_list
        (str : pyobj -> string) (n : string) (tok : bool)
        (pre post : list Function) (f : Function) :
  In (function_name f) ["mint"; "burn"; "Transfer"; "transferFrom"] ->
  ERC20ChangeBalance._detect_change_balance_function str
    (mkContract n (pre ++ f :: post) tok)
  = ERC20ChangeBalance._detect_change_balance_function str
      (mkContract n (pre ++ post) tok).
Proof.
  intros Hin. apply detect_skips.
  destruct (ERC20ChangeBalance.appends str f) eqn:E; [|reflexivity].
  apply appends_iff in E as (Hout & _). now elim Hout.
Qed.

Lemma matcher_skips_allow_list_witness :
  has_onlyOwner (Samples.drain "transferFrom")
  /\ has_transfer_like_call Samples.sample_str (Samples.drain "transferFrom")
  /\ has_balance_arithmetic (Samples.drain "transferFrom")
  /\ ERC20ChangeBalance._detect_change_balance_function Samples.sample_str
       (mkContract "Token" ([] ++ Samples.drain "transferFrom" :: []) true)
     = [].
Proof.
  split; [|split; [|split]].
  - exists Samples.onlyOwner. split; [left|]; reflexivity.
  - exists (Identifier (PyStr "token.transfer")), [].
    split; [left; reflexivity|]. exists "token.", "". reflexivity.
  - exists ADD, balanceOf_variable, (Literal (PyInt 1)).
    split; [right; left; reflexivity|]. split; left; reflexivity.
  - rewrite (matcher_skips_allow_list Samples.sample_str "Token" true [] []).
    + reflexivity.
    + simpl. tauto.
Defined.

(** C10 (as stated, refuted).  A function named "transfer" with the
    "onlyOwner" modifier, a transfer call and the addition
    [balanceOf + 1] whose operand is an Identifier referencing the
    balanceOf state variable satisfies both predicates as they are worded,
    and is not in the matcher's result: the balance test wants the
    operand to be the variable object itself. *)
Lemma lowercase_transfer_by_identifier_is_missed :
  function_name transfer_by_identifier = "transfer"
  /\ has_onlyOwner transfer_by_identifier
  /\ has_transfer_like_call Samples.sample_str transfer_by_identifier
  /\ has_balance_arithmetic_as_worded transfer_by_identifier
  /\ ~ In "transfer"
         (ERC20ChangeBalance._detect_change_balance_function
            Samples.sample_str
            (mkContract "Token" [transfer_by_identifier] true)).
Proof.
  split; [reflexivity|]. split; [|split; [|split]].
  - exists Samples.onlyOwner. split; [left|]; reflexivity.
  - exists (Identifier (PyStr "token.transfer")), [].
    split; [left; reflexivity|]. exists "token.", "". reflexivity.
  - exists ADD, (Identifier balanceOf_variable), (Literal (PyInt 1)).
    split; [right; left; reflexivity|]. split; left; reflexivity.
  - intros H. exact H.
Qed.

(** C10 (amended).  The allow-list test is an exact, case-sensitive
    comparison of the function's name with "mint", "burn", "Transfer" and
    "transferFrom".  For a function that carries the "onlyOwner" modifier,
    has a call whose callee's text contains "transfer" and has an addition
    or subtraction one of whose operands is the balanceOf state-variable
    object itself, the matcher appends the function's name, at the
    function's place, exactly when the name is none of these four strings;
    so a function named "transfer" is not excluded and is in the result. *)
Theorem allow_list_match_is_exact
        (str : pyobj -> string) (n : string) (tok : bool)
        (pre post : list Function) (f : Function) :
  has_onlyOwner f ->
  has_transfer_like_call str f ->
  has_balance_arithmetic f ->
  ERC20ChangeBalance._detect_change_balance_function str
    (mkContract n (pre ++ f :: post) tok)
  = ERC20ChangeBalance._detect_change_balance_function str
      (mkContract n pre tok)
    ++ (if existsb (String.eqb (function_name f))
             ["mint"; "burn"; "Transfer"; "transferFrom"]
        then [] else [function_name f])
    ++ ERC20ChangeBalance._detect_change_balance_function str
         (mkContract n post tok)
  /\ (function_name f = "transfer" ->
      In "transfer"
         (ERC20ChangeBalance._detect_change_balance_function str
            (mkContract n (pre ++ f :: post) tok))).
Proof.
  intros Hown Hcall Harith.
  assert (ERC20ChangeBalance.appends str f
          = negb (existsb (String.eqb (function_name f))
                    ["mint"; "burn"; "Transfer"; "transferFrom"])) as Happ.
  { destruct (existsb (String.eqb (function_name f))
                ["mint"; "burn"; "Transfer"; "transferFrom"]) eqn:E.
    - destruct (ERC20ChangeBalance.appends str f) eqn:A; [|reflexivity].
      apply appends_iff in A as (Hout & _).
      apply (ignored_iff f) in E. now elim Hout.
    - apply appends_iff. repeat split; try assumption.
      intros Hin. apply (ignored_iff f) in Hin.
      unfold ERC20ChangeBalance.ignored_functions in Hin. congruence. }
  assert (ERC20ChangeBalance._detect_change_balance_function str
            (mkContract n (pre ++ f :: post) tok)
          = ERC20ChangeBalance._detect_change_balance_function str
              (mkContract n pre tok)
            ++ (if existsb (String.eqb (function_name f))
                     ["mint"; "burn"; "Transfer"; "transferFrom"]
                then [] else [function_name f])
            ++ ERC20ChangeBalance._detect_change_balance_function str
                 (mkContract n post tok)) as Heq.
  { rewrite !detect_change_balance_function_filter. cbn [functions].
    rewrite filter_app, map_app. cbn [filter]. rewrite Happ.
    now destruct (existsb (String.eqb (function_name f))
                    ["mint"; "burn"; "Transfer"; "transferFrom"]). }
  split; [exact Heq|].
  intros Hname. rewrite Heq, Hname.
  apply in_or_app. right. apply in_or_app. left. now left.
Qed.

Lemma allow_list_match_is_exact_witness :
  ERC20ChangeBalance._detect_change_balance_function Samples.sample_str
    (mkContract "Token"
       ([Samples.drain "Transfer"] ++ Samples.drain "transfer"
          :: [Samples.drain "transferFrom"]) true)
  = ["transfer"].
Proof.
  destruct (allow_list_match_is_exact Samples.sample_str "Token" true
              [Samples.drain "Transfer"] [Samples.drain "transferFrom"]
              (Samples.drain "transfer")) as [H _].
  - exists Samples.onlyOwner. split; [left|]; reflexivity.
  - exists (Identifier (PyStr "token.transfer")), [].
    split; [left; reflexivity|]. exists "token.", "". reflexivity.
  - exists ADD, balanceOf_variable, (Literal (PyInt 1)).
    split; [right; left; reflexivity|]. split; left; reflexivity.
  - rewrite H. reflexivity.
Defined.

(** ** ERC20TransferLimit *)

Section TransferLimitFacts.

Import ERC20TransferLimit.

Lemma bind_assoc {A B C : Type} (m : result A) (k : A -> result B)
      (k' : B -> result C) :
  bind (bind m k) k' = bind m (fun a => bind (k a) k').
Proof. destruct m; reflexivity. Qed.

(** With [Literal] bound, the sub-comparison test always answers, and
    answers the Identifier-left shape. *)
Lemma is_transfer_require_with_Literal (e : pyobj) :
  _is_transfer_require globals_with_Literal e
  = OK (comparison_identifier_left e).
Proof.
  destruct e as [| | | | op l r | | | | | | |]; try reflexivity.
  destruct op; try reflexivity.
  destruct l as [| | | | | | | | v | | |]; try reflexivity.
  destruct r as [| | | | | | | | | w | |]; destruct v;
    try reflexivity; try (cbn; now rewrite andb_false_r).
  destruct w; cbn; now rewrite ?andb_true_r, ?andb_false_r.
Qed.

(** As the module is written, the sub-comparison test answers False or
    stops at the unbound name. *)
Lemma is_transfer_require_as_written (e : pyobj) :
  _is_transfer_require module_globals e
  = if comparison_names_Literal e then Raise (NameError "Literal")
    else OK false.
Proof.
  destruct e as [| | | | op l r | | | | | | |]; try reflexivity.
  destruct op; try reflexivity.
  destruct l; reflexivity.
Qed.

(** On a logical AND the guard test is the two sub-comparison tests,
    the right one run only after the left one answered True. *)
Lemma statement_on_AND (G : namespace) (l r : pyobj) :
  load_global G "BinaryOperation" = OK C_BinaryOperation ->
  _is_transfer_require_statement G (BinaryOperation AND l r)
  = bind (_is_transfer_require G l)
         (fun t : bool => if t then _is_transfer_require G r else OK false).
Proof.
  intros H. unfold _is_transfer_require_statement. rewrite H. reflexivity.
Qed.

Lemma is_transfer_require_statement_with_Literal (e : pyobj) :
  _is_transfer_require_statement globals_with_Literal e
  = OK (guard_shape_identifier_left e).
Proof.
  destruct e as [| | | | op l r | | | | | | |]; try reflexivity.
  destruct op; try reflexivity.
  rewrite (statement_on_AND globals_with_Literal l r eq_refl).
  rewrite (is_transfer_require_with_Literal l).
  cbn [guard_shape_identifier_left].
  destruct (comparison_identifier_left l); simpl; [|reflexivity].
  apply is_transfer_require_with_Literal.
Qed.

Lemma is_transfer_require_statement_as_written (e : pyobj) :
  _is_transfer_require_statement module_globals e
  = if guard_names_Literal e then Raise (NameError "Literal")
    else OK false.
Proof.
  destruct e as [| | | | op l r | | | | | | |]; try reflexivity.
  destruct op; try reflexivity.
  rewrite (statement_on_AND module_globals l r eq_refl).
  rewrite (is_transfer_require_as_written l).
  cbn [guard_names_Literal].
  now destruct (comparison_names_Literal l).
Qed.

Lemma comparison_shape_names_Literal (e : pyobj) :
  comparison_identifier_left e = true -> comparison_names_Literal e = true.
Proof.
  destruct e as [| | | | op l r | | | | | | |]; try discriminate.
  destruct op; try discriminate.
  destruct l; try discriminate. reflexivity.
Qed.

Lemma guard_shape_names_Literal (e : pyobj) :
  guard_shape_identifier_left e = true -> guard_names_Literal e = true.
Proof.
  destruct e as [| | | | op l r | | | | | | |]; try discriminate.
  destruct op; try discriminate.
  simpl. intros H. apply andb_true_iff in H as [H _].
  now apply comparison_shape_names_Literal.
Qed.

(** The extraction reads [.value] off the two children of the object it
    is handed; handed a guard, whose children are comparisons, it faults. *)
Lemma get_transfer_limit_on_guard (e : pyobj) :
  guard_shape_identifier_left e = true ->
  _get_transfer_limit e = Raise (AttributeError C_BinaryOperation "value").
Proof.
  destruct e as [| | | | op l r | | | | | | |]; try discriminate.
  destruct op; try discriminate.
  simpl. intros H. apply andb_true_iff in H as [H _].
  destruct l as [| | | | op' a b | | | | | | |]; try discriminate.
  reflexivity.
Qed.

(** The scan over a prefix it passes over goes on with the rest. *)
Lemma nodes_loop_passed_over (G : namespace) (pre rest : list Node)
      (lim : pyobj) :
  passed_over G pre ->
  nodes_loop G (pre ++ rest) lim = nodes_loop G rest lim.
Proof.
  induction pre as [|m pre IH]; intros Hpre; [reflexivity|].
  simpl. destruct (NodeType_eqb (node_type m) EXPRESSION) eqn:E.
  - rewrite (Hpre m); [|now left|now destruct (node_type m)].
    simpl. apply IH. intros x Hx. apply Hpre. now right.
  - apply IH. intros x Hx. apply Hpre. now right.
Qed.

Lemma contracts_loop_app (G : namespace) (pre rest : list Contract)
      (results : list Output) :
  contracts_loop G (pre ++ rest) results
  = bind (contracts_loop G pre results)
         (fun results' => contracts_loop G rest results').
Proof.
  revert results; induction pre as [|c pre IH]; intros results;
    [reflexivity|].
  simpl. destruct (is_token c); [|apply IH].
  destruct (functions_loop G c (_get_transfer_functions c) results);
    simpl; [apply IH | reflexivity].
Qed.

End TransferLimitFacts.

(** C2 (as stated, refuted).  [5 < cap && 6 < cap], with [cap] a
    uint256-typed state variable, has the guard shape the specification
    words (Literal on the left, Identifier on the right, both children), and
    the guard test answers False on it: the reversed operand order is not
    accepted. *)
Lemma reversed_operand_order_is_rejected :
  guard_shape_spec Samples.guard_reversed = true
  /\ ERC20TransferLimit._is_transfer_require_statement
       ERC20TransferLimit.module_globals Samples.guard_reversed = OK false
  /\ ERC20TransferLimit._is_transfer_require_statement
       ERC20TransferLimit.globals_with_Literal Samples.guard_reversed
     = OK false.
Proof. repeat split. Qed.

(** C2 (amended).  Whenever the guard test answers, its answer is True
    exactly for a logical AND whose two children are each a strict less-than
    with an Identifier of a uint256-typed state variable on the left and an
    integer Literal on the right; and with the name [Literal] bound to the
    host's Literal class the test answers on every expression.  The reversed
    operand order is not part of the shape. *)
Theorem guard_test_accepts_identifier_left_only (exp : pyobj) :
  (forall b : bool,
     ERC20TransferLimit._is_transfer_require_statement
       ERC20TransferLimit.module_globals exp = OK b ->
     b = guard_shape_identifier_left exp)
  /\ ERC20TransferLimit._is_transfer_require_statement
       ERC20TransferLimit.globals_with_Literal exp
     = OK (guard_shape_identifier_left exp).
Proof.
  split; [|apply is_transfer_require_statement_with_Literal].
  intros b. rewrite is_transfer_require_statement_as_written.
  destruct (guard_names_Literal exp) eqn:E; [discriminate|].
  intros H. injection H as <-.
  destruct (guard_shape_identifier_left exp) eqn:S; [|reflexivity].
  apply guard_shape_names_Literal in S. congruence.
Qed.

Lemma guard_test_accepts_identifier_left_only_witness :
  false = guard_shape_identifier_left Samples.guard_reversed
  /\ ERC20TransferLimit._is_transfer_require_statement
       ERC20TransferLimit.globals_with_Literal Samples.guard
     = OK true.
Proof.
  split.
  - apply (proj1 (guard_test_accepts_identifier_left_only
                    Samples.guard_reversed) false).
    reflexivity.
  - apply (proj2 (guard_test_accepts_identifier_left_only Samples.guard)).
Defined.

(** C3 (the code at the failing inputs).  On the scenario
    [balance < msg.value && msg.value < 100] the scan of the transfer
    function stops at the unbound name [Literal]; with [Literal] bound the
    guard is not accepted and no limit comes out, not 100.  On an accepted
    guard, [cap < 5 && cap < 6], neither side of which is "msg.value", the
    extraction is handed the AND itself and faults on [.value] instead of
    reporting no limit.  Handed the sub-comparison [msg.value < 100] alone,
    the extraction does return 100. *)
Lemma limit_extraction_at_failing_inputs :
  ERC20TransferLimit._detect_transfer_limit ERC20TransferLimit.module_globals
    (Samples.transfer_with [mkNode EXPRESSION Samples.guard_msg_value])
  = Raise (NameError "Literal")
  /\ ERC20TransferLimit._detect_transfer_limit
       ERC20TransferLimit.globals_with_Literal
       (Samples.transfer_with [mkNode EXPRESSION Samples.guard_msg_value])
     = OK PyNone
  /\ ERC20TransferLimit._is_transfer_require_statement
       ERC20TransferLimit.globals_with_Literal Samples.guard = OK true
  /\ ERC20TransferLimit._detect_transfer_limit
       ERC20TransferLimit.globals_with_Literal
       (Samples.transfer_with [mkNode EXPRESSION Samples.guard])
     = Raise (AttributeError C_BinaryOperation "value")
  /\ ERC20TransferLimit._detect_transfer_limit
       ERC20TransferLimit.module_globals
       (Samples.transfer_with [mkNode EXPRESSION Samples.guard])
     = Raise (NameError "Literal")
  /\ ERC20TransferLimit._get_transfer_limit
       (BinaryOperation LT Samples.msg_value (Literal (PyInt 100)))
     = OK (PyInt 100).
Proof. repeat split. Qed.

(** C4 (the code at the failing input).  On a token-like contract whose
    [transfer(address,uint256)] holds the expression node
    [cap < 5 && cap < 6], [_detect] raises: NameError on [Literal] as the
    module is written, and AttributeError on [.value] once [Literal] is
    bound.  A guard of another shape, [cap < balance && cap < 6], raises
    the NameError as well instead of counting as no match. *)
Lemma transfer_limit_detect_raises :
  ERC20TransferLimit._detect ERC20TransferLimit.module_globals
    [Samples.token_with Samples.guard true]
  = Raise (NameError "Literal")
  /\ ERC20TransferLimit._detect ERC20TransferLimit.globals_with_Literal
       [Samples.token_with Samples.guard true]
     = Raise (AttributeError C_BinaryOperation "value")
  /\ ERC20TransferLimit._detect ERC20TransferLimit.module_globals
       [Samples.token_with
          (BinaryOperation AND
             (BinaryOperation LT Samples.cap Samples.balance)
             (BinaryOperation LT Samples.cap (Literal (PyInt 6)))) true]
     = Raise (NameError "Literal").
Proof. repeat split. Qed.

(** C8.  The scan of a function's nodes ends at the first EXPRESSION node
    that the guard test does not answer False on: the outcome is fixed by
    that node alone (the limit extracted from it when the test answered
    True, the fault otherwise), so the nodes after it, matching or not,
    have no effect. *)
Theorem first_match_ends_scan
        (G : namespace) (f : Function) (pre post : list Node) (n : Node) :
  all_nodes f = pre ++ n :: post ->
  passed_over G pre ->
  node_type n = EXPRESSION ->
  ERC20TransferLimit._is_transfer_require_statement G (node_expression n)
  <> OK false ->
  ERC20TransferLimit._detect_transfer_limit G f
  = match ERC20TransferLimit._is_transfer_require_statement
            G (node_expression n) with
    | OK _ => ERC20TransferLimit._get_transfer_limit (node_expression n)
    | Raise e => Raise e
    end
  /\ forall (f' : Function) (post' : list Node),
       all_nodes f' = pre ++ n :: post' ->
       ERC20TransferLimit._detect_transfer_limit G f'
       = ERC20TransferLimit._detect_transfer_limit G f.
Proof.
  intros Hf Hpre Hn Hm.
  assert (forall rest,
             ERC20TransferLimit.nodes_loop G (pre ++ n :: rest) PyNone
             = match ERC20TransferLimit._is_transfer_require_statement
                       G (node_expression n) with
               | OK _ =>
                   ERC20TransferLimit._get_transfer_limit (node_expression n)
               | Raise e => Raise e
               end) as Hscan.
  { intros rest. rewrite nodes_loop_passed_over by exact Hpre.
    simpl. rewrite Hn. simpl.
    destruct (ERC20TransferLimit._is_transfer_require_statement
                G (node_expression n)) as [[|]|e]; simpl;
      [reflexivity | now elim Hm | reflexivity]. }
  unfold ERC20TransferLimit._detect_transfer_limit.
  split.
  - rewrite Hf. apply Hscan.
  - intros f' post' Hf'. rewrite Hf, Hf', !Hscan. reflexivity.
Qed.

Lemma first_match_ends_scan_witness :
  ERC20TransferLimit._detect_transfer_limit
    ERC20TransferLimit.globals_with_Literal
    (Samples.transfer_with
       ([mkNode ENTRYPOINT PyNone; mkNode EXPRESSION Samples.guard_reversed]
          ++ mkNode EXPRESSION Samples.guard
          :: [mkNode EXPRESSION Samples.guard_later]))
  = ERC20TransferLimit._get_transfer_limit Samples.guard.
Proof.
  apply (first_match_ends_scan ERC20TransferLimit.globals_with_Literal
           (Samples.transfer_with
              ([mkNode ENTRYPOINT PyNone;
                mkNode EXPRESSION Samples.guard_reversed]
                 ++ mkNode EXPRESSION Samples.guard
                 :: [mkNode EXPRESSION Samples.guard_later]))
           [mkNode ENTRYPOINT PyNone; mkNode EXPRESSION Samples.guard_reversed]
           [mkNode EXPRESSION Samples.guard_later]
           (mkNode EXPRESSION Samples.guard)).
  - reflexivity.
  - intros m [<- | [<- | []]] H; [discriminate H | reflexivity].
  - reflexivity.
  - discriminate.
Defined.

(** The same at the module as it is written: the scan ends at the first
    node that names [Literal], whatever follows. *)
Example first_fault_ends_scan_as_written :
  ERC20TransferLimit._detect_transfer_limit ERC20TransferLimit.module_globals
    (Samples.transfer_with
       ([mkNode ENTRYPOINT PyNone; mkNode EXPRESSION Samples.guard_reversed]
          ++ mkNode EXPRESSION Samples.guard
          :: [mkNode EXPRESSION Samples.guard_later]))
  = Raise (NameError "Literal").
Proof. reflexivity. Qed.

(** C9.  A contract that is not flagged token-like adds nothing to the
    findings of [_detect], whatever its functions hold: the outcome is the
    one for the contract set without it, alone it yields the empty list,
    and so does the empty contract set. *)
Theorem non_token_contract_yields_nothing
        (G : namespace) (pre post : list Contract) (c : Contract) :
  is_token c = false ->
  ERC20TransferLimit._detect G (pre ++ c :: post)
  = ERC20TransferLimit._detect G (pre ++ post)
  /\ ERC20TransferLimit._detect G [c] = OK []
  /\ ERC20TransferLimit._detect G [] = OK [].
Proof.
  intros Hc. unfold ERC20TransferLimit._detect. split; [|split].
  - rewrite !contracts_loop_app. simpl. now rewrite Hc.
  - simpl. now rewrite Hc.
  - reflexivity.
Qed.

Lemma non_token_contract_yields_nothing_witness :
  ERC20TransferLimit._detect ERC20TransferLimit.module_globals
    [Samples.token_with Samples.guard false]
  = OK []
  /\ ERC20TransferLimit._detect ERC20TransferLimit.globals_with_Literal
       [Samples.token_with Samples.guard false]
     = OK [].
Proof.
  split.
  - apply (non_token_contract_yields_nothing
             ERC20TransferLimit.module_globals [] []
             (Samples.token_with Samples.guard false)).
    reflexivity.
  - apply (non_token_contract_yields_nothing
             ERC20TransferLimit.globals_with_Literal [] []
             (Samples.token_with Samples.guard false)).
    reflexivity.
Defined.

(** ** Further properties of the matcher of ERC20ChangeBalance *)

Lemma filter_none {A : Type} (p : A -> bool) (l : list A) :
  (forall x, In x l -> p x = false) -> filter p l = [].
Proof.
  induction l as [|x l IH]; intros H; [reflexivity|].
  simpl. rewrite (H x) by now left.
  apply IH. intros y Hy. apply H. now right.
Qed.

(** X1.  A name is in the matcher's result exactly when the contract has a
    function of that name that is not on the allow-list, carries a modifier
    named "onlyOwner", has a call whose callee's text contains "transfer"
    and has an addition or subtraction with the balanceOf variable as an
    operand. *)
Theorem matcher_membership
        (str : pyobj -> string) (c : Contract) (name : string) :
  In name (ERC20ChangeBalance._detect_change_balance_function str c)
  <-> exists f,
        In f (functions c) /\ function_name f = name
        /\ ~ In name ["mint"; "burn"; "Transfer"; "transferFrom"]
        /\ has_onlyOwner f
        /\ has_transfer_like_call str f
        /\ has_balance_arithmetic f.
Proof.
  rewrite detect_change_balance_function_filter, in_map_iff.
  split.
  - intros (f & Hname & Hf). apply filter_In in Hf as (Hf & Happ).
    apply appends_iff in Happ as (Hi & Ho & Hc & Ha).
    exists f. rewrite <- Hname. auto 6.
  - intros (f & Hf & Hname & Hi & Ho & Hc & Ha).
    exists f. split; [exact Hname|]. apply filter_In. split; [exact Hf|].
    apply appends_iff. rewrite Hname. auto.
Qed.

(** X2.  The matcher goes through the functions one by one and in order:
    the result for a list of functions followed by another is the result
    for the first followed by the result for the second, whatever the
    contracts' names and token flags. *)
Theorem matcher_over_concatenation
        (str : pyobj -> string) (n n1 n2 : string) (tok tok1 tok2 : bool)
        (fs1 fs2 : list Function) :
  ERC20ChangeBalance._detect_change_balance_function str
    (mkContract n (fs1 ++ fs2) tok)
  = ERC20ChangeBalance._detect_change_balance_function str
      (mkContract n1 fs1 tok1)
    ++ ERC20ChangeBalance._detect_change_balance_function str
         (mkContract n2 fs2 tok2).
Proof.
  rewrite !detect_change_balance_function_filter. simpl.
  now rewrite filter_app, map_app.
Qed.

(** X3.  The order of a function's instructions does not matter to the
    matcher: a function with the same name and modifiers and the same
    instructions in another order gives the same result. *)
Theorem matcher_ignores_instruction_order
        (str : pyobj -> string) (n : string) (tok : bool)
        (pre post : list Function) (f f' : Function) :
  function_name f' = function_name f ->
  modifiers f' = modifiers f ->
  Permutation (instructions f) (instructions f') ->
  ERC20ChangeBalance._detect_change_balance_function str
    (mkContract n (pre ++ f' :: post) tok)
  = ERC20ChangeBalance._detect_change_balance_function str
      (mkContract n (pre ++ f :: post) tok).
Proof.
  intros Hname Hmod Hperm.
  assert (forall g g' : Function,
             function_name g' = function_name g ->
             modifiers g' = modifiers g ->
             Permutation (instructions g) (instructions g') ->
             ERC20ChangeBalance.appends str g = true ->
             ERC20ChangeBalance.appends str g' = true) as Hone.
  { intros g g' Hn Hm Hp Hg.
    apply appends_iff in Hg as (Hi & (m & Hin & Hown) & Hc & Ha).
    apply appends_iff. rewrite Hn. split; [exact Hi|]. split; [|split].
    - exists m. rewrite Hm. auto.
    - destruct Hc as (called & args & Hin' & Hs).
      exists called, args. split; [|exact Hs].
      now apply (Permutation_in _ Hp).
    - destruct Ha as (op & a & b & Hin' & Hrest).
      exists op, a, b. split; [|exact Hrest].
      now apply (Permutation_in _ Hp). }
  assert (ERC20ChangeBalance.appends str f'
          = ERC20ChangeBalance.appends str f) as Heq.
  { destruct (ERC20ChangeBalance.appends str f) eqn:E.
    - now apply (Hone f f').
    - destruct (ERC20ChangeBalance.appends str f') eqn:E'; [|reflexivity].
      rewrite <- E. symmetry.
      apply (Hone f' f); auto using Permutation_sym. }
  rewrite !detect_change_balance_function_filter. simpl.
  rewrite !filter_app. simpl. rewrite Heq.
  destruct (ERC20ChangeBalance.appends str f); [|reflexivity].
  rewrite !map_app. simpl. now rewrite Hname.
Qed.

Lemma matcher_ignores_instruction_order_witness :
  ERC20ChangeBalance._detect_change_balance_function Samples.sample_str
    (mkContract "Vault" ([] ++ MoreSamples.drain_reordered :: []) false)
  = ["drain"].
Proof.
  rewrite (matcher_ignores_instruction_order Samples.sample_str "Vault" false
             [] [] (Samples.drain "drain") MoreSamples.drain_reordered).
  - reflexivity.
  - reflexivity.
  - reflexivity.
  - apply perm_swap.
Defined.

(** X4.  The balance test looks at the operand object itself: when no
    operand of any binary operation is a state-variable object (operands
    that are Identifiers referring to balanceOf included), the matcher
    reports nothing. *)
Theorem matcher_needs_state_variable_operand
        (str : pyobj -> string) (c : Contract) :
  (forall f op a b,
      In f (functions c) ->
      In (BinaryOperation op a b) (instructions f) ->
      isinstance a C_StateVariable = false
      /\ isinstance b C_StateVariable = false) ->
  ERC20ChangeBalance._detect_change_balance_function str c = [].
Proof.
  intros H. rewrite detect_change_balance_function_filter.
  rewrite filter_none; [reflexivity|].
  intros f Hf.
  destruct (ERC20ChangeBalance.appends str f) eqn:E; [|reflexivity].
  apply appends_iff in E as (_ & _ & _ & (op & a & b & Hin & _ & Hv)).
  destruct (H f op a b Hf Hin) as [Ha Hb].
  destruct Hv as [-> | ->]; discriminate.
Qed.

Lemma matcher_needs_state_variable_operand_witness :
  ERC20ChangeBalance._detect_change_balance_function Samples.sample_str
    (mkContract "Vault" [MoreSamples.drain_by_identifier] false)
  = [].
Proof.
  apply matcher_needs_state_variable_operand.
  intros f op a b [<- | []] [Hi | [Hi | []]].
  - discriminate Hi.
  - injection Hi as _ <- <-. split; reflexivity.
Defined.

(** X5.  The call test looks at the instruction itself, not inside it: when
    no instruction of any function is itself a call expression (calls
    nested in other expressions included), the matcher reports nothing. *)
Theorem matcher_needs_top_level_call
        (str : pyobj -> string) (c : Contract) :
  (forall f i,
      In f (functions c) -> In i (instructions f) ->
      isinstance i C_CallExpression = false) ->
  ERC20ChangeBalance._detect_change_balance_function str c = [].
Proof.
  intros H. rewrite detect_change_balance_function_filter.
  rewrite filter_none; [reflexivity|].
  intros f Hf.
  destruct (ERC20ChangeBalance.appends str f) eqn:E; [|reflexivity].
  apply appends_iff in E as (_ & _ & (called & args & Hin & _) & _).
  specialize (H f _ Hf Hin). discriminate H.
Qed.

Lemma matcher_needs_top_level_call_witness :
  ERC20ChangeBalance._detect_change_balance_function Samples.sample_str
    (mkContract "Vault" [MoreSamples.drain_by_nested_call] false)
  = [].
Proof.
  apply matcher_needs_top_level_call.
  intros f i [<- | []] [<- | [<- | []]]; reflexivity.
Defined.

(** ** Further properties of ERC20TransferLimit *)

Section TransferLimitMore.

Import ERC20TransferLimit.

(** An object the sub-comparison test accepts is a binary operation,
    however the class names resolve. *)
Lemma require_true_is_binary (G : namespace) (e : pyobj) :
  _is_transfer_require G e = OK true ->
  exists op a b, e = BinaryOperation op a b.
Proof.
  destruct e; try (intros _; eauto; fail);
    unfold _is_transfer_require;
    (destruct (load_global G "BinaryOperation") as [c|]; [destruct c|]);
    cbn; discriminate.
Qed.

(** An object the guard test accepts is a logical AND whose left child
    passed the sub-comparison test. *)
Lemma statement_true_shape (G : namespace) (e : pyobj) :
  _is_transfer_require_statement G e = OK true ->
  exists l r, e = BinaryOperation AND l r
              /\ _is_transfer_require G l = OK true.
Proof.
  destruct e as [| | | | op l r | | | | | | |];
    try (unfold _is_transfer_require_statement;
         (destruct (load_global G "BinaryOperation") as [c|];
          [destruct c|]);
         cbn; discriminate).
  destruct op;
    try (unfold _is_transfer_require_statement;
         (destruct (load_global G "BinaryOperation") as [c|];
          [destruct c|]);
         cbn; discriminate).
  intros H. exists l, r. split; [reflexivity|].
  unfold _is_transfer_require_statement in H.
  destruct (load_global G "BinaryOperation") as [c|]; [|discriminate H].
  destruct c; cbn -[_is_transfer_require] in H; try discriminate H.
  destruct (_is_transfer_require G l) as [[|]|]; try discriminate H.
  reflexivity.
Qed.

(** On whatever the guard test accepts, the extraction faults. *)
Lemma statement_true_faults (G : namespace) (e : pyobj) :
  _is_transfer_require_statement G e = OK true ->
  _get_transfer_limit e = Raise (AttributeError C_BinaryOperation "value").
Proof.
  intros H. apply statement_true_shape in H as (l & r & -> & Hl).
  apply require_true_is_binary in Hl as (op & a & b & ->).
  reflexivity.
Qed.

Lemma nodes_loop_no_limit (G : namespace) (nodes : list Node) (v : pyobj) :
  nodes_loop G nodes PyNone = OK v -> v = PyNone.
Proof.
  induction nodes as [|n nodes IH]; simpl.
  - intros H. now injection H.
  - destruct (NodeType_eqb (node_type n) EXPRESSION); [|exact IH].
    destruct (_is_transfer_require_statement G (node_expression n))
      as [[|]|e] eqn:S; simpl.
    + rewrite (statement_true_faults G _ S). discriminate.
    + exact IH.
    + discriminate.
Qed.

Lemma functions_loop_no_finding (G : namespace) (c : Contract)
      (fs : list Function) (acc rs : list Output) :
  functions_loop G c fs acc = OK rs -> rs = acc.
Proof.
  revert acc; induction fs as [|f fs IH]; intros acc; simpl.
  - intros H. now injection H.
  - destruct (_detect_transfer_limit G f) as [v|e] eqn:D; simpl;
      [|discriminate].
    apply nodes_loop_no_limit in D. subst v. simpl. apply IH.
Qed.

Lemma contracts_loop_no_finding (G : namespace) (cs : list Contract)
      (acc rs : list Output) :
  contracts_loop G cs acc = OK rs -> rs = acc.
Proof.
  revert acc; induction cs as [|c cs IH]; intros acc; simpl.
  - intros H. now injection H.
  - destruct (is_token c); [|apply IH].
    destruct (functions_loop G c (_get_transfer_functions c) acc)
      as [rs'|e] eqn:F; simpl; [|discriminate].
    apply functions_loop_no_finding in F. subst rs'. apply IH.
Qed.

Lemma nodes_loop_as_written (nodes : list Node) :
  nodes_loop module_globals nodes PyNone
  = if existsb node_names_Literal nodes then Raise (NameError "Literal")
    else OK PyNone.
Proof.
  induction nodes as [|n nodes IH]; [reflexivity|].
  simpl. unfold node_names_Literal at 1.
  destruct (NodeType_eqb (node_type n) EXPRESSION); simpl; [|exact IH].
  rewrite is_transfer_require_statement_as_written.
  destruct (guard_names_Literal (node_expression n)); simpl;
    [reflexivity | exact IH].
Qed.



Lemma nodes_loop_filter (G : namespace) (nodes : list Node) (lim : pyobj) :
  nodes_loop G (filter is_EXPRESSION nodes) lim = nodes_loop G nodes lim.
Proof.
  induction nodes as [|n nodes IH]; [reflexivity|].
  simpl. unfold is_EXPRESSION at 1.
  destruct (NodeType_eqb (node_type n) EXPRESSION) eqn:E; [|exact IH].
  simpl. rewrite E.
  destruct (_is_transfer_require_statement G (node_expression n))
    as [[|]|e]; simpl; [reflexivity | exact IH | reflexivity].
Qed.

(** The loops only ever add to the findings they are given. *)
Lemma functions_loop_accumulates (G : namespace) (c : Contract)
      (fs : list Function) (acc : list Output) :
  functions_loop G c fs acc
  = bind (functions_loop G c fs []) (fun rs => OK (acc ++ rs)).
Proof.
  revert acc; induction fs as [|f fs IH]; intros acc; simpl.
  - now rewrite app_nil_r.
  - destruct (_detect_transfer_limit G f) as [v|e]; simpl; [|reflexivity].
    rewrite IH. symmetry. rewrite IH. symmetry.
    destruct (functions_loop G c fs []) as [rs|e]; simpl; [|reflexivity].
    destruct (is_not_None v); simpl.
    + now rewrite <- app_assoc.
    + reflexivity.
Qed.

Lemma contracts_loop_accumulates (G : namespace) (cs : list Contract)
      (acc : list Output) :
  contracts_loop G cs acc
  = bind (contracts_loop G cs []) (fun rs => OK (acc ++ rs)).
Proof.
  revert acc; induction cs as [|c cs IH]; intros acc; simpl.
  - now rewrite app_nil_r.
  - destruct (is_token c); [|apply IH].
    rewrite functions_loop_accumulates.
    destruct (functions_loop G c (_get_transfer_functions c) [])
      as [rs|e]; simpl; [|reflexivity].
    rewrite IH. symmetry. rewrite IH. symmetry.
    destruct (contracts_loop G cs []) as [rs'|e]; simpl; [|reflexivity].
    now rewrite app_assoc.
Qed.

End TransferLimitMore.

(** X6.  [_get_transfer_functions] returns functions of the contract only,
    at most one per canonical signature and in the order
    "transfer(address,uint256)" then
    "transferFrom(address,address,uint256)"; a signature the contract
    lacks is passed over. *)
Theorem transfer_functions_by_signature (c : Contract) :
  (forall f, In f (ERC20TransferLimit._get_transfer_functions c) ->
             In f (functions c))
  /\ (let sigs := map full_name
                    (ERC20TransferLimit._get_transfer_functions c) in
      sigs = []
      \/ sigs = ["transfer(address,uint256)"]
      \/ sigs = ["transferFrom(address,address,uint256)"]
      \/ sigs = ["transfer(address,uint256)";
                 "transferFrom(address,address,uint256)"]).
Proof.
  unfold ERC20TransferLimit._get_transfer_functions,
    ERC20TransferLimit.transfer_signatures,
    ERC20TransferLimit.get_function_from_signature.
  cbn [ERC20TransferLimit.signatures_loop
         ERC20TransferLimit.get_function_from_signature].
  unfold ERC20TransferLimit.get_function_from_signature.
  destruct (find (fun f => String.eqb (full_name f)
                             "transfer(address,uint256)") (functions c))
    as [f1|] eqn:F1;
    destruct (find (fun f => String.eqb (full_name f)
                               "transferFrom(address,address,uint256)")
                (functions c)) as [f2|] eqn:F2;
    try (apply find_some in F1 as [I1 E1]; apply String.eqb_eq in E1);
    try (apply find_some in F2 as [I2 E2]; apply String.eqb_eq in E2);
    cbn; rewrite ?E1, ?E2; split; try tauto.
  - intros f [<- | [<- | []]]; assumption.
  - intros f [<- | []]; assumption.
  - intros f [<- | []]; assumption.
Qed.

(** X7.  Handed a binary operation whose two operands carry a [.value],
    exactly one of which equals "msg.value", [_get_transfer_limit] returns
    the other operand's value, whichever side "msg.value" is on and
    whatever the operator. *)
Theorem limit_is_the_value_opposite_msg_value
        (op : BinaryOperationType) (l r lv rv : pyobj) :
  attr_value l = OK lv ->
  attr_value r = OK rv ->
  py_eq_str lv "msg.value" = true ->
  py_eq_str rv "msg.value" = false ->
  ERC20TransferLimit._get_transfer_limit (BinaryOperation op l r) = OK rv
  /\ ERC20TransferLimit._get_transfer_limit (BinaryOperation op r l) = OK rv.
Proof.
  intros Hl Hr Hlv Hrv. unfold ERC20TransferLimit._get_transfer_limit.
  split; cbn [attr_expression_left attr_expression_right bind].
  - rewrite Hl. cbn [bind]. rewrite Hlv. cbn [bind].
    rewrite ?Hr. reflexivity.
  - rewrite Hr. cbn [bind]. rewrite Hrv. cbn [bind].
    rewrite ?Hl. cbn [bind]. rewrite ?Hlv. cbn [bind].
    rewrite ?Hr. reflexivity.
Qed.

Lemma limit_is_the_value_opposite_msg_value_witness :
  ERC20TransferLimit._get_transfer_limit
    (BinaryOperation LT Samples.msg_value (Literal (PyInt 100)))
  = OK (PyInt 100)
  /\ ERC20TransferLimit._get_transfer_limit
       (BinaryOperation LT (Literal (PyInt 100)) Samples.msg_value)
     = OK (PyInt 100).
Proof.
  apply (limit_is_the_value_opposite_msg_value LT Samples.msg_value
           (Literal (PyInt 100)) (PyStr "msg.value") (PyInt 100));
    reflexivity.
Defined.

(** X8.  [_get_transfer_limit] returns only when both operands of the
    object it is handed carry a [.value]; what it returns is the right
    operand's value when the left one's equals "msg.value", otherwise the
    left operand's value when the right one's equals "msg.value", otherwise
    None. *)
Theorem limit_extraction_returns (e v : pyobj) :
  ERC20TransferLimit._get_transfer_limit e = OK v ->
  exists l r lv rv,
    attr_expression_left e = OK l /\ attr_expression_right e = OK r
    /\ attr_value l = OK lv /\ attr_value r = OK rv
    /\ v = if py_eq_str lv "msg.value" then rv
           else if py_eq_str rv "msg.value" then lv else PyNone.
Proof.
  unfold ERC20TransferLimit._get_transfer_limit.
  destruct (attr_expression_left e) as [l|x] eqn:El; [|discriminate].
  cbn [bind].
  destruct (attr_value l) as [lv|x] eqn:Vl; [|discriminate].
  cbn [bind].
  destruct (attr_expression_right e) as [r|x] eqn:Er;
    [|destruct (py_eq_str lv "msg.value"); cbn [bind]; discriminate].
  cbn [bind].
  destruct (attr_value r) as [rv|x] eqn:Vr;
    [|destruct (py_eq_str lv "msg.value"); cbn [bind]; discriminate].
  intros H. exists l, r, lv, rv.
  split; [reflexivity|]. split; [reflexivity|].
  split; [exact Vl|]. split; [exact Vr|].
  destruct (py_eq_str lv "msg.value"); cbn [bind] in H.
  - now injection H.
  - destruct (py_eq_str rv "msg.value"); cbn [bind] in H; now injection H.
Qed.

Lemma limit_extraction_returns_witness :
  exists l r lv rv,
    attr_expression_left
      (BinaryOperation LT Samples.cap (Literal (PyInt 5))) = OK l
    /\ attr_expression_right
         (BinaryOperation LT Samples.cap (Literal (PyInt 5))) = OK r
    /\ attr_value l = OK lv /\ attr_value r = OK rv
    /\ PyNone = if py_eq_str lv "msg.value" then rv
                else if py_eq_str rv "msg.value" then lv else PyNone.
Proof.
  apply (limit_extraction_returns
           (BinaryOperation LT Samples.cap (Literal (PyInt 5))) PyNone).
  reflexivity.
Defined.

(** X9.  However the class names resolve, [_detect_transfer_limit] never
    returns a limit: when it returns, it returns None.  (A guard the test
    accepts is an AND of two comparisons, and the extraction then reads
    [.value] off a comparison.) *)
Theorem scan_never_returns_a_limit
        (G : namespace) (f : Function) (v : pyobj) :
  ERC20TransferLimit._detect_transfer_limit G f = OK v -> v = PyNone.
Proof.
  unfold ERC20TransferLimit._detect_transfer_limit. intros H.
  now apply nodes_loop_no_limit in H.
Qed.

Lemma scan_never_returns_a_limit_witness :
  ERC20TransferLimit._detect_transfer_limit
    ERC20TransferLimit.module_globals
    (Samples.transfer_with [mkNode ENTRYPOINT PyNone;
                            mkNode EXPRESSION Samples.guard_reversed])
  = OK PyNone
  /\ PyNone = PyNone.
Proof.
  split; [reflexivity|].
  apply (scan_never_returns_a_limit ERC20TransferLimit.module_globals
           (Samples.transfer_with
              [mkNode ENTRYPOINT PyNone;
               mkNode EXPRESSION Samples.guard_reversed]) PyNone).
  reflexivity.
Defined.

(** X10.  However the class names resolve, ERC20TransferLimit's [_detect]
    never reports a finding: when it returns, it returns the empty list. *)
Theorem transfer_limit_detect_never_reports
        (G : namespace) (contracts : list Contract) (rs : list Output) :
  ERC20TransferLimit._detect G contracts = OK rs -> rs = [].
Proof.
  unfold ERC20TransferLimit._detect. intros H.
  now apply contracts_loop_no_finding in H.
Qed.

Lemma transfer_limit_detect_never_reports_witness :
  ERC20TransferLimit._detect ERC20TransferLimit.module_globals
    [MoreSamples.quiet_token]
  = OK []
  /\ @nil Output = [].
Proof.
  split; [reflexivity|].
  apply (transfer_limit_detect_never_reports
           ERC20TransferLimit.module_globals [MoreSamples.quiet_token] []).
  reflexivity.
Defined.

(** X11.  As the module is written, the scan of a function raises
    NameError on [Literal] exactly when one of its EXPRESSION nodes holds a
    logical AND whose left child is a strict less-than with an Identifier
    on the left; otherwise it returns None. *)
Theorem scan_as_written (f : Function) :
  ERC20TransferLimit._detect_transfer_limit
    ERC20TransferLimit.module_globals f
  = if function_names_Literal f then Raise (NameError "Literal")
    else OK PyNone.
Proof.
  unfold ERC20TransferLimit._detect_transfer_limit, function_names_Literal.
  apply nodes_loop_as_written.
Qed.


(** X13.  Nodes whose type is not EXPRESSION play no part in the scan,
    whatever expression they carry: a function holding only the EXPRESSION
    nodes of another, in the same order, gives the same outcome. *)
Theorem scan_ignores_other_nodes (G : namespace) (f f' : Function) :
  all_nodes f' = filter is_EXPRESSION (all_nodes f) ->
  ERC20TransferLimit._detect_transfer_limit G f'
  = ERC20TransferLimit._detect_transfer_limit G f.
Proof.
  intros H. unfold ERC20TransferLimit._detect_transfer_limit.
  rewrite H. apply nodes_loop_filter.
Qed.

Lemma scan_ignores_other_nodes_witness :
  ERC20TransferLimit._detect_transfer_limit
    ERC20TransferLimit.module_globals
    (Samples.transfer_with [mkNode EXPRESSION Samples.guard_reversed])
  = ERC20TransferLimit._detect_transfer_limit
      ERC20TransferLimit.module_globals
      (Samples.transfer_with [mkNode IF Samples.guard;
                              mkNode EXPRESSION Samples.guard_reversed;
                              mkNode RETURN Samples.guard]).
Proof.
  apply (scan_ignores_other_nodes ERC20TransferLimit.module_globals).
  reflexivity.
Defined.

(** X14.  [_detect] handles the contracts one after the other: its outcome
    on a contract set followed by another is the outcome on the first
    followed by the outcome on the second, and a fault in the first is the
    outcome, the second not being looked at. *)
Theorem transfer_limit_detect_over_concatenation
        (G : namespace) (cs1 cs2 : list Contract) :
  ERC20TransferLimit._detect G (cs1 ++ cs2)
  = bind (ERC20TransferLimit._detect G cs1)
         (fun rs1 =>
            bind (ERC20TransferLimit._detect G cs2)
                 (fun rs2 => OK (rs1 ++ rs2))).
Proof.
  unfold ERC20TransferLimit._detect. rewrite contracts_loop_app.
  destruct (ERC20TransferLimit.contracts_loop G cs1 []) as [rs1|e];
    [|reflexivity].
  cbn [bind]. apply contracts_loop_accumulates.
Qed.

(** X15.  The guard test runs the sub-comparison test on the right child
    only after the left child passed it: when the left child does not
    pass, the right child has no effect on the outcome. *)
Theorem guard_test_short_circuits (G : namespace) (l r r' : pyobj) :
  ERC20TransferLimit._is_transfer_require G l <> OK true ->
  ERC20TransferLimit._is_transfer_require_statement G
    (BinaryOperation AND l r)
  = ERC20TransferLimit._is_transfer_require_statement G
      (BinaryOperation AND l r').
Proof.
  intros H. unfold ERC20TransferLimit._is_transfer_require_statement.
  destruct (load_global G "BinaryOperation") as [c|]; [|reflexivity].
  cbn -[ERC20TransferLimit._is_transfer_require].
  destruct (isinstance (BinaryOperation AND l r) c) eqn:I1;
    change (isinstance (BinaryOperation AND l r') c)
      with (isinstance (BinaryOperation AND l r) c);
    rewrite I1; [|reflexivity].
  destruct (ERC20TransferLimit._is_transfer_require G l) as [[|]|e];
    [now elim H | reflexivity | reflexivity].
Qed.

Lemma guard_test_short_circuits_witness :
  ERC20TransferLimit._is_transfer_require_statement
    ERC20TransferLimit.module_globals
    (BinaryOperation AND (BinaryOperation LT (Literal (PyInt 5)) Samples.cap)
                         Samples.guard)
  = ERC20TransferLimit._is_transfer_require_statement
      ERC20TransferLimit.module_globals
      (BinaryOperation AND
         (BinaryOperation LT (Literal (PyInt 5)) Samples.cap) PyNone).
Proof.
  apply (guard_test_short_circuits ERC20TransferLimit.module_globals).
  discriminate.
Defined.
